(** * A model of the Grafana Kafka datasource backend

    Shallow embedding of [pkg/kafka_helper/client.go] and
    [pkg/plugin/plugin.go]: the consumer wrapper, the query path, the health
    check, the stream permission handlers and the streaming loop of
    [RunStream].  The Kafka client, the Grafana SDK and [encoding/json] are
    library code; they are modelled by what the code relies on. *)

From Stdlib Require Import ZArith QArith.
From stdpp Require Import base list gmap strings.

Open Scope string_scope.
Set Warnings "-register-all".

(* ------------------------------------------------------------------ *)
(** ** Library values: Kafka errors and events *)

(** [kafka.Error]: a librdkafka error code and its text. *)
Record KafkaError := mkKafkaError { err_code : Z; err_str : string }.

(** librdkafka's [RD_KAFKA_RESP_ERR__ALL_BROKERS_DOWN] and
    [RD_KAFKA_RESP_ERR__TRANSPORT]. *)
Definition ErrAllBrokersDown : Z := -187.
Definition ErrTransport : Z := -195.
Definition ErrInvalidArg : Z := -186.

(** A JSON document as [encoding/json] sees it; a number is kept by the
    exact value of its literal (1e400 is 10^400). *)
Inductive json :=
| JNull
| JBool (b : bool)
| JNumber (q : Q)
| JString (s : string)
| JArray (l : list json)
| JObject (kvs : list (string * json)).

(** A raw message payload: [Some j] when the bytes are JSON text denoting
    [j], [None] when they are not JSON at all. *)
Abbreviation Payload := (option json).

(** [kafka.Event], as returned by [Consumer.Poll]. *)
Inductive Event :=
| EvMessage (value : Payload)        (* *kafka.Message *)
| EvError (e : KafkaError)           (* kafka.Error *)
| EvOther (kind : string).           (* AssignedPartitions, PartitionEOF, ... *)

(* ------------------------------------------------------------------ *)
(** ** [json.Unmarshal] into [KafkaMessage] ([map[string]float64]) *)

(** [type KafkaMessage map[string]float64]; a nil map is [None]. *)
Abbreviation KafkaMessage := (gmap string Q).

Inductive UnmarshalError :=
| SyntaxError
| UnmarshalTypeError (value : string).

Definition json_kind (v : json) : string :=
  match v with
  | JNull => "null" | JBool _ => "bool" | JNumber _ => "number"
  | JString _ => "string" | JArray _ => "array" | JObject _ => "object"
  end.

Section Float64.
Local Open Scope Z_scope.

(** [n / d] rounded to the nearest integer, ties to even ([n >= 0], [d > 0]). *)
Definition round_div_even (n d : Z) : Z :=
  let q := Z.div n d in
  let r := Z.modulo n d in
  match Z.compare (2 * r) d with
  | Lt => q
  | Gt => q + 1
  | Eq => if Z.even q then q else q + 1
  end.

(** [(n / d) / 2^e] as a numerator and a denominator. *)
Definition scale_pow2 (n d e : Z) : Z * Z :=
  if Z.leb 0 e then (n, d * 2 ^ e) else (n * 2 ^ (- e), d).

(** [strconv.ParseFloat(s, 64)] on a literal of exact value [q]: the nearest
    float64 (ties to even, subnormals included), as a reduced rational, or
    [None] when the literal rounds beyond the largest float64 ([ErrRange]). *)
Definition float64_of_Q (q : Q) : option Q :=
  let n := Z.abs (Qnum q) in
  let d := Zpos (Qden q) in
  if Z.eqb n 0 then Some 0%Q else
  let e0 := Z.log2 n - Z.log2 d in
  let '(n0, d0) := scale_pow2 n d e0 in
  let k := if Z.leb d0 n0 then e0 else e0 - 1 in      (* 2^k <= |q| < 2^(k+1) *)
  let e := Z.max (k - 52) (-1074) in
  let '(n1, d1) := scale_pow2 n d e in
  let m := round_div_even n1 d1 in
  let '(m, e) := if Z.eqb m (2 ^ 53) then (2 ^ 52, e + 1) else (m, e) in
  let m := if Z.ltb (Qnum q) 0 then - m else m in
  if Z.ltb 971 e then None
  else if Z.leb 0 e then Some (Qred (Qmake (m * 2 ^ e) 1))
  else Some (Qred (Qmake m (Z.to_pos (2 ^ (- e))))).

Example float64_of_Q_tenth :
  float64_of_Q (1 # 10) = Some (3602879701896397 # 36028797018963968).
Proof. reflexivity. Qed.

Example float64_of_Q_max :
  float64_of_Q (Qmake ((2 ^ 53 - 1) * 2 ^ 971) 1) = Some (Qmake ((2 ^ 53 - 1) * 2 ^ 971) 1).
Proof. reflexivity. Qed.

Example float64_of_Q_overflow : float64_of_Q (Qmake (10 ^ 400) 1) = None.
Proof. reflexivity. Qed.

Example float64_of_Q_underflow : float64_of_Q (1 # Z.to_pos (10 ^ 400)) = Some 0%Q.
Proof. reflexivity. Qed.

End Float64.

(** Decoding one map element into a fresh float64 ([literalStore]): a number
    is parsed by [ParseFloat]; when it is out of range a type error is
    recorded (its value "number " followed by the literal, which this model
    does not keep, so "number") and the element keeps its zero value.  [null] leaves the zero
    value; any other value records a type error and leaves the zero value.
    The element is written to the map in every case. *)
Definition float_of_json (v : json) : Q * option UnmarshalError :=
  match v with
  | JNumber q =>
      match float64_of_Q q with
      | Some x => (x, None)
      | None => (0%Q, Some (UnmarshalTypeError "number"))
      end
  | JNull => (0%Q, None)
  | _ => (0%Q, Some (UnmarshalTypeError (json_kind v)))
  end.

(** [d.saveError] keeps the first error only. *)
Definition save_error (saved new : option UnmarshalError) : option UnmarshalError :=
  match saved with Some _ => saved | None => new end.

Fixpoint unmarshal_object (kvs : list (string * json)) (m : KafkaMessage)
    (saved : option UnmarshalError) : KafkaMessage * option UnmarshalError :=
  match kvs with
  | [] => (m, saved)
  | (k, v) :: rest =>
      let '(x, e) := float_of_json v in
      unmarshal_object rest (<[k := x]> m) (save_error saved e)
  end.

(** [json.Unmarshal(payload, &message)] with [message] a nil map. *)
Definition unmarshal_message (p : Payload) : option KafkaMessage * option UnmarshalError :=
  match p with
  | None => (None, Some SyntaxError)
  | Some JNull => (None, None)
  | Some (JObject kvs) =>
      let '(m, e) := unmarshal_object kvs ∅ None in (Some m, e)
  | Some v => (None, Some (UnmarshalTypeError (json_kind v)))
  end.

(** Ranging over a nil map visits nothing. *)
(** An out-of-range number is stored as 0 and reported as a type error. *)
Example unmarshal_message_overflow :
  unmarshal_message (Some (JObject [("a", JNumber (Qmake (10 ^ 400) 1))])) =
  (Some (<["a" := 0%Q]> ∅), Some (UnmarshalTypeError "number")).
Proof. reflexivity. Qed.

Definition msg_entries (msg : option KafkaMessage) : KafkaMessage :=
  match msg with Some m => m | None => ∅ end.

(* ------------------------------------------------------------------ *)
(** ** [KafkaClient] *)

Record Options := mkOptions {
  opt_BootstrapServers : string;
  opt_AutoOffsetReset : string;
  opt_APIKey : string }.

Record KafkaClient := mkKafkaClient {
  BootstrapServers : string;
  AutoOffsetReset : string }.

Definition NewKafkaClient (o : Options) : KafkaClient :=
  mkKafkaClient (opt_BootstrapServers o) (opt_AutoOffsetReset o).

(** The [kafka.ConfigMap] handed to [kafka.NewConsumer]. *)
Record ConsumerConfig := mkConsumerConfig {
  cfg_bootstrap_servers : string;
  cfg_group_id : string;
  cfg_enable_auto_commit : string;
  cfg_auto_offset_reset : string }.

Definition consumer_config (c : KafkaClient) : ConsumerConfig :=
  mkConsumerConfig (BootstrapServers c) "grafana-kafka-datasource" "false"
    (AutoOffsetReset c).

(** [kafka.TopicPartition] as built by [TopicAssign]. *)
Record TopicPartition := mkTopicPartition {
  tp_topic : string; tp_partition : Z; tp_offset : Z }.

Definition topic_assign_partitions (topic : string) (partition offset : Z)
    : list TopicPartition :=
  [mkTopicPartition topic partition offset].

(** Result of [ConsumerPull]: it either panics or returns the (possibly nil)
    decoded message together with the polled event. *)
Inductive PullResult :=
| PullPanic (e : KafkaError)
| PullOk (msg : option KafkaMessage) (ev : option Event).

(** [ConsumerPull], given what [Consumer.Poll(100)] returned.  The error of
    [json.Unmarshal] is dropped. *)
Definition ConsumerPull (polled : option Event) : PullResult :=
  match polled with
  | None => PullOk None None
  | Some ev =>
      match ev with
      | EvMessage p => PullOk (fst (unmarshal_message p)) (Some ev)
      | EvError e =>
          if Z.eqb (err_code e) ErrAllBrokersDown then PullPanic e
          else PullOk None (Some ev)
      | EvOther _ => PullOk None (Some ev)
      end
  end.

(* ------------------------------------------------------------------ *)
(** ** Data frames ([grafana-plugin-sdk-go/data]) *)

(** A [time.Time]; [time_zero] is Go's zero time. *)
Abbreviation Time := Z.
Definition time_zero : Time := 0.

(** The backing vector of a [data.Field]. *)
Inductive Vector :=
| VTime (l : list Time)        (* []time.Time *)
| VFloat64 (l : list Q)        (* []float64 *)
| VInt64 (l : list Z).         (* []int64 *)

(** A value passed to [Field.Set]. *)
Inductive Value :=
| ValTime (t : Time)
| ValFloat64 (x : Q)
| ValInt64 (n : Z).

Record Field := mkField { field_name : string; field_vector : Vector }.

Record FrameMeta := mkFrameMeta { meta_channel : string }.

Record Frame := mkFrame {
  frame_name : string;
  frame_fields : list Field;
  frame_meta : option FrameMeta }.

(** [data.NewFrame(name)]. *)
Definition NewFrame (name : string) : Frame := mkFrame name [] None.

(** [data.NewField(name, nil, values)]. *)
Definition NewField (name : string) (v : Vector) : Field := mkField name v.

(** [vector.Set(i, val)]: [None] stands for the panic on an index out of
    range or a value of another type. *)
Definition vector_set (v : Vector) (i : nat) (x : Value) : option Vector :=
  match v, x with
  | VTime l, ValTime t => if bool_decide (i < length l) then Some (VTime (<[i := t]> l)) else None
  | VFloat64 l, ValFloat64 q => if bool_decide (i < length l) then Some (VFloat64 (<[i := q]> l)) else None
  | VInt64 l, ValInt64 n => if bool_decide (i < length l) then Some (VInt64 (<[i := n]> l)) else None
  | _, _ => None
  end.

(** [frame.Fields[j].Set(i, x)]; [None] is a panic. *)
Definition fields_set (fs : list Field) (j i : nat) (x : Value) : option (list Field) :=
  match fs !! j with
  | None => None
  | Some f =>
      match vector_set (field_vector f) i x with
      | None => None
      | Some v => Some (<[j := mkField (field_name f) v]> fs)
      end
  end.

(* ------------------------------------------------------------------ *)
(** ** The frame built by one iteration of [RunStream] *)

(** The body of [for key, value := range msg_data], visiting the entries in
    the order [kvs] chosen by the Go runtime. *)
Fixpoint append_columns (fs : list Field) (cnt : nat) (kvs : list (string * Q))
    : option (list Field) :=
  match kvs with
  | [] => Some fs
  | (key, value) :: rest =>
      let fs1 := (fs ++ [NewField key (VFloat64 (repeat 0%Q 1))])%list in
      match fields_set fs1 cnt 0 (ValFloat64 value) with
      | None => None
      | Some fs2 => append_columns fs2 (S cnt) rest
      end
  end.

(** Lines 294-307 of [RunStream]: a frame named "response" with a one-row
    "time" field set to [now], then one float64 field per visited entry.
    [None] is a panic of [Field.Set]. *)
Definition stream_frame (now : Time) (kvs : list (string * Q)) : option Frame :=
  let frame := NewFrame "response" in
  let fs0 := (frame_fields frame ++ [NewField "time" (VTime (repeat time_zero 1))])%list in
  match fields_set fs0 0 0 (ValTime now) with
  | None => None
  | Some fs1 =>
      match append_columns fs1 1 kvs with
      | None => None
      | Some fs => Some (mkFrame (frame_name frame) fs (frame_meta frame))
      end
  end.

Example stream_frame_ab :
  stream_frame 7%Z [("a", 1%Q); ("b", 5#2)] =
  Some (mkFrame "response"
          [mkField "time" (VTime [7%Z]); mkField "a" (VFloat64 [1%Q]);
           mkField "b" (VFloat64 [5#2])] None).
Proof. reflexivity. Qed.

(* ------------------------------------------------------------------ *)
(** ** [RunStream] as a transition system *)

(** [queryModel]; [Partition] is an int32. *)
Record queryModel := mkQueryModel {
  qm_Topic : string;
  qm_Partition : Z;
  qm_WithStreaming : bool }.

(** The zero value of [var qm queryModel]. *)
Definition queryModel_zero : queryModel := mkQueryModel "" 0 false.

(** [backend.RunStreamRequest]: the channel path and the subscriber's data. *)
Record RunStreamRequest := mkRunStreamRequest {
  rsr_Path : string;
  rsr_Data : Payload }.

(** What [RunStream] does to the consumer and the sender, each with the
    outcome the library reported. *)
Inductive Action :=
| ANewConsumer (cfg : ConsumerConfig) (err : option KafkaError)
| AAssign (tps : list TopicPartition) (err : option KafkaError)
| APoll (timeout_ms : Z) (polled : option Event)
| ASendFrame (f : Frame) (err : option string).

Inductive PanicValue :=
| PanicKafka (e : KafkaError)      (* panic(err) of the Kafka wrapper *)
| PanicRuntime.                    (* index out of range in Field.Set *)

Inductive RSState :=
| RSStart                  (* RunStream entered *)
| RSPolling                (* at the top of the for/select loop *)
| RSReturned               (* returned nil after ctx.Done() *)
| RSPanicked (p : PanicValue).

(** The topic, partition and offset [RunStream] passes to [TopicAssign]:
    read from [qm], which is never filled in. *)
Definition run_stream_target (req : RunStreamRequest) : list TopicPartition :=
  let qm := queryModel_zero in
  let offset := (-1)%Z in
  let topic := qm_Topic qm in
  let partition := qm_Partition qm in
  topic_assign_partitions topic partition offset.

Section RunStream.

Variable client : KafkaClient.
Variable req : RunStreamRequest.

(** One step of [RunStream].  The environment chooses the outcome of each
    library call, which [select] branch fires, the value of [time.Now()]
    and the order [kvs] in which [range] visits the decoded map (any
    permutation of its entries). *)
Inductive rs_step : RSState -> list Action -> RSState -> Prop :=
| rs_init_fail e :
    rs_step RSStart [ANewConsumer (consumer_config client) (Some e)]
      (RSPanicked (PanicKafka e))
| rs_assign_fail e :
    rs_step RSStart
      [ANewConsumer (consumer_config client) None;
       AAssign (run_stream_target req) (Some e)]
      (RSPanicked (PanicKafka e))
| rs_init_ok :
    rs_step RSStart
      [ANewConsumer (consumer_config client) None;
       AAssign (run_stream_target req) None]
      RSPolling
| rs_ctx_done :
    rs_step RSPolling [] RSReturned
| rs_pull_panic polled e :
    ConsumerPull polled = PullPanic e ->
    rs_step RSPolling [APoll 100 polled] (RSPanicked (PanicKafka e))
| rs_pull_nil polled msg :
    ConsumerPull polled = PullOk msg None ->
    rs_step RSPolling [APoll 100 polled] RSPolling
| rs_frame_panic polled msg ev now kvs :
    ConsumerPull polled = PullOk msg (Some ev) ->
    kvs ≡ₚ map_to_list (msg_entries msg) ->
    stream_frame now kvs = None ->
    rs_step RSPolling [APoll 100 polled] (RSPanicked PanicRuntime)
| rs_send polled msg ev now kvs f err :
    ConsumerPull polled = PullOk msg (Some ev) ->
    kvs ≡ₚ map_to_list (msg_entries msg) ->
    stream_frame now kvs = Some f ->
    rs_step RSPolling [APoll 100 polled; ASendFrame f err] RSPolling.

(** Runs: sequences of steps, with their actions concatenated. *)
Inductive rs_run : RSState -> list Action -> RSState -> Prop :=
| rs_run_nil s : rs_run s [] s
| rs_run_cons s1 a1 s2 a2 s3 :
    rs_step s1 a1 s2 -> rs_run s2 a2 s3 -> rs_run s1 (a1 ++ a2)%list s3.

End RunStream.

(* ------------------------------------------------------------------ *)
(** ** [Query] and [QueryData] *)

(** [live.Channel] and [Channel.String()]. *)
Record Channel := mkChannel { ch_Scope : string; ch_Namespace : string; ch_Path : string }.

Definition ScopeDatasource : string := "ds".

Definition channel_String (c : Channel) : string :=
  let ch := ch_Scope c ++ "/" ++ ch_Namespace c in
  if String.eqb (ch_Path c) "" then ch else ch ++ "/" ++ ch_Path c.

Record TimeRange := mkTimeRange { tr_From : Time; tr_To : Time }.

(** [backend.DataQuery]: the fields [Query] reads. *)
Record DataQuery := mkDataQuery {
  dq_RefID : string;
  dq_JSON : list Byte.byte;
  dq_TimeRange : TimeRange }.

(** [backend.PluginContext]: the datasource instance UID. *)
Record PluginContext := mkPluginContext { pc_UID : string }.

Record DataResponse := mkDataResponse {
  dr_Frames : list Frame;
  dr_Error : option UnmarshalError }.

Definition SetMeta (f : Frame) (m : FrameMeta) : Frame :=
  mkFrame (frame_name f) (frame_fields f) (Some m).

Section QueryPath.

(** [json.Unmarshal(query.JSON, &qm)] into a zero [queryModel]: the decoded
    model and the error it returns.  Left abstract: the theorems hold for
    any behaviour of the decoder. *)
Variable unmarshal_query : list Byte.byte -> queryModel * option UnmarshalError.

Definition Query (pCtx : PluginContext) (query : DataQuery) : DataResponse :=
  let '(qm, err) := unmarshal_query (dq_JSON query) in
  let response := mkDataResponse [] err in
  match err with
  | Some _ => response
  | None =>
      let frame := NewFrame "response" in
      let frame := mkFrame (frame_name frame)
          (frame_fields frame ++
             [NewField "time" (VTime [tr_From (dq_TimeRange query); tr_To (dq_TimeRange query)]);
              NewField "values" (VInt64 [0%Z; 0%Z])])%list
          (frame_meta frame) in
      let frame :=
        if qm_WithStreaming qm then
          let channel := mkChannel ScopeDatasource (pc_UID pCtx) "stream" in
          SetMeta frame (mkFrameMeta (channel_String channel))
        else frame in
      mkDataResponse (dr_Frames response ++ [frame])%list (dr_Error response)
  end.

(** [QueryData]: responses stored by RefID, in query order. *)
Definition QueryData (pCtx : PluginContext) (queries : list DataQuery)
    : gmap string DataResponse :=
  fold_left (fun responses q => <[dq_RefID q := Query pCtx q]> responses) queries ∅.

End QueryPath.

(* ------------------------------------------------------------------ *)
(** ** [CheckHealth] *)

Inductive GoResult (A : Type) :=
| GReturn (a : A)
| GPanic (p : PanicValue).
Arguments GReturn {A} a.
Arguments GPanic {A} p.

(** [KafkaClient.HealthCheck], given the error of [kafka.NewConsumer] in
    [ConsumerInitialize] and the error of [GetMetadata]. *)
Definition HealthCheck (init_err metadata_err : option KafkaError)
    : GoResult (option KafkaError) :=
  match init_err with
  | Some e => GPanic (PanicKafka e)
  | None =>
      match metadata_err with
      | Some e => if Z.eqb (err_code e) ErrTransport then GReturn (Some e) else GReturn None
      | None => GReturn None
      end
  end.

Inductive HealthStatus := HealthStatusUnknown | HealthStatusOk | HealthStatusError.

Record CheckHealthResult := mkCheckHealthResult {
  chr_Status : HealthStatus; chr_Message : string }.

Definition CheckHealth (init_err metadata_err : option KafkaError)
    : GoResult CheckHealthResult :=
  let status := HealthStatusOk in
  let message := "Data source is working..." in
  match HealthCheck init_err metadata_err with
  | GPanic p => GPanic p
  | GReturn err =>
      match err with
      | Some _ => GReturn (mkCheckHealthResult HealthStatusError "Cannot connect to the brokers.")
      | None => GReturn (mkCheckHealthResult status message)
      end
  end.

(* ------------------------------------------------------------------ *)
(** ** [SubscribeStream] and [PublishStream] *)

Inductive SubscribeStreamStatus :=
| SubscribeStreamStatusOK | SubscribeStreamStatusNotFound
| SubscribeStreamStatusPermissionDenied.

Record SubscribeStreamRequest := mkSubscribeStreamRequest {
  ssr_Path : string; ssr_Data : list Byte.byte }.

Definition SubscribeStream (req : SubscribeStreamRequest) : SubscribeStreamStatus :=
  let status := SubscribeStreamStatusPermissionDenied in
  if String.eqb (ssr_Path req) "stream" then SubscribeStreamStatusOK else status.

Inductive PublishStreamStatus :=
| PublishStreamStatusOK | PublishStreamStatusNotFound
| PublishStreamStatusPermissionDenied.

Record PublishStreamRequest := mkPublishStreamRequest {
  psr_Path : string; psr_Data : list Byte.byte }.

Definition PublishStream (req : PublishStreamRequest) : PublishStreamStatus :=
  PublishStreamStatusPermissionDenied.

(* ------------------------------------------------------------------ *)
(** ** Shape of the streamed frames *)

(** The "time" field of a streamed frame, and the field of one entry. *)
Definition time_column (now : Time) : Field := mkField "time" (VTime [now]).
Definition stream_column (kv : string * Q) : Field := mkField kv.1 (VFloat64 [kv.2]).

Lemma append_columns_spec (kvs : list (string * Q)) :
  forall (fs : list Field) (cnt : nat), cnt = length fs ->
  append_columns fs cnt kvs = Some (fs ++ map stream_column kvs)%list.
Proof.
  induction kvs as [|[key value] rest IH]; intros fs cnt Hcnt; simpl.
  - by rewrite app_nil_r.
  - unfold fields_set.
    rewrite lookup_app_r by lia.
    replace (cnt - length fs) with 0 by lia. simpl.
    rewrite insert_app_r_alt by lia.
    replace (cnt - length fs) with 0 by lia. simpl.
    rewrite (IH _ (S cnt)).
    + by rewrite <- app_assoc.
    + rewrite length_app. simpl. lia.
Qed.

Lemma stream_frame_spec (now : Time) (kvs : list (string * Q)) :
  stream_frame now kvs =
  Some (mkFrame "response" (time_column now :: map stream_column kvs) None).
Proof.
  unfold stream_frame. simpl.
  pose proof (append_columns_spec kvs [time_column now] 1 eq_refl) as H.
  unfold time_column in H. rewrite H.
  reflexivity.
Qed.

(** A streamed frame never panics in [Field.Set]. *)
Lemma stream_frame_not_None (now : Time) (kvs : list (string * Q)) :
  stream_frame now kvs <> None.
Proof. by rewrite stream_frame_spec. Qed.

Lemma map_to_list_perm_nil (kvs : list (string * Q)) :
  kvs ≡ₚ map_to_list (∅ : KafkaMessage) -> kvs = [].
Proof. rewrite map_to_list_empty. apply Permutation_nil_r. Qed.

(** The entries visited by [range] are those of the map. *)
Lemma perm_map_to_list_lookup (m : KafkaMessage) (kvs : list (string * Q)) :
  kvs ≡ₚ map_to_list m ->
  NoDup kvs.*1 /\ (forall k v, In (k, v) kvs <-> m !! k = Some v).
Proof.
  intros Hp. split.
  - rewrite Hp. apply NoDup_fst_map_to_list.
  - intros k v. rewrite <- list_elem_of_In, Hp. apply elem_of_map_to_list.
Qed.

Lemma ConsumerPull_panic_inv (polled : option Event) (e : KafkaError) :
  ConsumerPull polled = PullPanic e ->
  polled = Some (EvError e) /\ err_code e = ErrAllBrokersDown.
Proof.
  destruct polled as [[p|e'|k]|]; simpl; try discriminate.
  destruct (Z.eqb_spec (err_code e') ErrAllBrokersDown); intros H; inversion H; subst; auto.
Qed.

Lemma ConsumerPull_all_brokers_down (e : KafkaError) :
  err_code e = ErrAllBrokersDown -> ConsumerPull (Some (EvError e)) = PullPanic e.
Proof. intros He. simpl. by rewrite He, Z.eqb_refl. Qed.

Lemma ConsumerPull_other_error (e : KafkaError) :
  err_code e <> ErrAllBrokersDown ->
  ConsumerPull (Some (EvError e)) = PullOk None (Some (EvError e)).
Proof. intros He. simpl. by destruct (Z.eqb_spec (err_code e) ErrAllBrokersDown). Qed.

Lemma ConsumerPull_message (p : Payload) :
  ConsumerPull (Some (EvMessage p)) = PullOk (fst (unmarshal_message p)) (Some (EvMessage p)).
Proof. reflexivity. Qed.

(** A step that polls a message event: it always sends one frame built from
    the entries left in [message] and goes back to polling. *)
Lemma rs_step_message_inv (client : KafkaClient) (req : RunStreamRequest)
    (p : Payload) (acts : list Action) (s' : RSState) :
  rs_step client req RSPolling (APoll 100 (Some (EvMessage p)) :: acts) s' ->
  s' = RSPolling /\
  exists now kvs f err,
    acts = [ASendFrame f err] /\
    kvs ≡ₚ map_to_list (msg_entries (fst (unmarshal_message p))) /\
    frame_fields f = time_column now :: map stream_column kvs.
Proof.
  intros H. inversion H as [| | | |polled e Hpull|polled msg Hpull
                           |polled msg ev now kvs Hpull Hperm Hframe
                           |polled msg ev now kvs f err Hpull Hperm Hframe]; subst.
  - rewrite ConsumerPull_message in Hpull. discriminate.
  - rewrite ConsumerPull_message in Hpull. discriminate.
  - by apply stream_frame_not_None in Hframe.
  - rewrite ConsumerPull_message in Hpull. injection Hpull as <- _.
    split; [reflexivity|].
    rewrite stream_frame_spec in Hframe. injection Hframe as <-.
    exists now, kvs, (mkFrame "response" (time_column now :: map stream_column kvs) None), err.
    auto.
Qed.

(** Every message event can be streamed with the entries in the order of
    [map_to_list]. *)
Lemma rs_step_message_send (client : KafkaClient) (req : RunStreamRequest)
    (p : Payload) (now : Time) (err : option string) :
  rs_step client req RSPolling
    [APoll 100 (Some (EvMessage p));
     ASendFrame (mkFrame "response"
       (time_column now :: map stream_column
          (map_to_list (msg_entries (fst (unmarshal_message p))))) None) err]
    RSPolling.
Proof.
  eapply rs_send.
  - apply ConsumerPull_message.
  - reflexivity.
  - apply stream_frame_spec.
Qed.

Lemma rs_run_from_panicked (client : KafkaClient) (req : RunStreamRequest)
    (p : PanicValue) (acts : list Action) (s : RSState) :
  rs_run client req (RSPanicked p) acts s -> acts = [].
Proof. intros H. inversion H as [|s1 a1 s2 a2 s3 Hstep]; [done|inversion Hstep]. Qed.

Lemma rs_run_from_returned (client : KafkaClient) (req : RunStreamRequest)
    (acts : list Action) (s : RSState) :
  rs_run client req RSReturned acts s -> acts = [].
Proof. intros H. inversion H as [|s1 a1 s2 a2 s3 Hstep]; [done|inversion Hstep]. Qed.

(** The only step that sends a frame is the one of a polled event. *)
Lemma rs_step_sent_frame (client : KafkaClient) (req : RunStreamRequest)
    (s1 : RSState) (acts : list Action) (s2 : RSState) (f : Frame) (err : option string) :
  rs_step client req s1 acts s2 -> In (ASendFrame f err) acts ->
  exists now kvs polled msg ev,
    In (APoll 100 polled) acts /\
    ConsumerPull polled = PullOk msg (Some ev) /\
    kvs ≡ₚ map_to_list (msg_entries msg) /\
    frame_fields f = time_column now :: map stream_column kvs.
Proof.
  destruct 1 as [e|e| | |polled e Hpull|polled msg Hpull
                |polled msg ev now kvs Hpull Hperm Hframe
                |polled msg ev now kvs f' err' Hpull Hperm Hframe];
    simpl; intros Hin; try (intuition discriminate).
  destruct Hin as [Hin|[Hin|[]]]; [discriminate|].
  injection Hin as -> ->.
  rewrite stream_frame_spec in Hframe. injection Hframe as <-.
  exists now, kvs, polled, msg, ev. simpl. auto.
Qed.

(** Every frame sent by a run comes from a poll of that run. *)
Lemma rs_run_sent_frames (client : KafkaClient) (req : RunStreamRequest)
    (s0 : RSState) (acts : list Action) (s : RSState) :
  rs_run client req s0 acts s ->
  forall f err, In (ASendFrame f err) acts ->
  exists now kvs polled msg ev,
    In (APoll 100 polled) acts /\
    ConsumerPull polled = PullOk msg (Some ev) /\
    kvs ≡ₚ map_to_list (msg_entries msg) /\
    frame_fields f = time_column now :: map stream_column kvs.
Proof.
  induction 1 as [s|s1 a1 s2 a2 s3 Hstep Hrun IH]; intros f err Hin; [done|].
  apply in_app_or in Hin as [Hin|Hin].
  - destruct (rs_step_sent_frame _ _ _ _ _ _ _ Hstep Hin)
      as (now & kvs & polled & msg & ev & Hpoll & Hrest).
    exists now, kvs, polled, msg, ev. split; [|done].
    apply in_or_app. by left.
  - destruct (IH f err Hin) as (now & kvs & polled & msg & ev & Hpoll & Hrest).
    exists now, kvs, polled, msg, ev. split; [|done].
    apply in_or_app. by right.
Qed.

(* ------------------------------------------------------------------ *)
(** ** Claims on [RunStream] *)

(** A subscriber asking for partition 2 of the topic "metrics". *)
Definition req_metrics : RunStreamRequest :=
  mkRunStreamRequest "stream"
    (Some (JObject [("topicName", JString "metrics"); ("partition", JNumber 2);
                    ("withStreaming", JBool true)])).

(** The assignment asked for by the spec: the subscription's topic and
    partition, at offset "latest" (-1). *)
Definition spec_run_stream_target (qm : queryModel) : list TopicPartition :=
  topic_assign_partitions (qm_Topic qm) (qm_Partition qm) (-1).

(** C1 (code_bug): in every run of [RunStream], the actions before the
    first poll are [ConsumerInitialize] and then [TopicAssign] of topic "",
    partition 0, offset -1, whatever the request: [qm] is never decoded
    from the request. *)
Theorem run_stream_assigns_zero_query_model (client : KafkaClient)
    (req : RunStreamRequest) (acts : list Action) (s : RSState) :
  rs_run client req RSStart acts s ->
  forall pre polled post, acts = (pre ++ APoll 100 polled :: post)%list ->
  exists rest,
    pre = ANewConsumer (consumer_config client) None
          :: AAssign [mkTopicPartition "" 0 (-1)] None :: rest.
Proof.
  intros Hrun.
  inversion Hrun as [s0 Hs Hnil|s1 a1 s2 a2 s3 Hstep Hrest]; subst;
    intros pre polled post Hacts.
  - by destruct pre.
  - inversion Hstep; subst.
    + apply rs_run_from_panicked in Hrest as ->.
      destruct pre as [|x [|y pre]]; simpl in Hacts; inversion Hacts.
    + apply rs_run_from_panicked in Hrest as ->.
      destruct pre as [|x [|y [|z pre]]]; simpl in Hacts; inversion Hacts.
    + destruct pre as [|x [|y rest]]; simpl in Hacts; inversion Hacts; subst.
      by exists rest.
Qed.

Lemma run_stream_assigns_zero_query_model_witness :
  (exists rest,
    [ANewConsumer (consumer_config (mkKafkaClient "localhost:9092" "latest")) None;
     AAssign (run_stream_target req_metrics) None] =
    ANewConsumer (consumer_config (mkKafkaClient "localhost:9092" "latest")) None
      :: AAssign [mkTopicPartition "" 0 (-1)] None :: rest) /\
  run_stream_target req_metrics <> spec_run_stream_target (mkQueryModel "metrics" 2 true).
Proof.
  split; [|discriminate].
  refine (run_stream_assigns_zero_query_model
           (mkKafkaClient "localhost:9092" "latest") req_metrics
           ([ANewConsumer (consumer_config (mkKafkaClient "localhost:9092" "latest")) None;
             AAssign (run_stream_target req_metrics) None] ++ ([APoll 100 None] ++ []))
           RSPolling _
           [ANewConsumer (consumer_config (mkKafkaClient "localhost:9092" "latest")) None;
             AAssign (run_stream_target req_metrics) None] None [] _).
  - eapply rs_run_cons; [apply rs_init_ok|].
    eapply rs_run_cons; [eapply rs_pull_nil; reflexivity|].
    apply rs_run_nil.
  - reflexivity.
Defined.

(** C2 (counterexample): a message whose payload is not JSON still gets a
    frame handed to the sender. *)
Lemma undecodable_payload_sends_frame :
  ~ (forall (client : KafkaClient) (req : RunStreamRequest) (acts : list Action) (s' : RSState),
       rs_step client req RSPolling (APoll 100 (Some (EvMessage None)) :: acts) s' ->
       forall f err, ~ In (ASendFrame f err) acts).
Proof.
  intros Hclaim.
  apply (Hclaim (mkKafkaClient "localhost:9092" "latest") req_metrics
           [ASendFrame (mkFrame "response" [time_column 0%Z] None) None] RSPolling
           (rs_step_message_send _ _ None 0%Z None)
           (mkFrame "response" [time_column 0%Z] None) None).
  by left.
Qed.

(** C2 (amended): when the payload fails to decode, the decode error is
    dropped: the loop still hands the sender one frame, holding the capture
    time and one column per entry the decoder stored (none when the payload
    is not JSON or not a JSON object), and goes back to polling. *)
Theorem undecodable_message_frame (client : KafkaClient) (req : RunStreamRequest)
    (p : Payload) (m : option KafkaMessage) (e : UnmarshalError)
    (acts : list Action) (s' : RSState) :
  unmarshal_message p = (m, Some e) ->
  rs_step client req RSPolling (APoll 100 (Some (EvMessage p)) :: acts) s' ->
  s' = RSPolling /\
  exists now kvs f err,
    acts = [ASendFrame f err] /\
    kvs ≡ₚ map_to_list (msg_entries m) /\
    frame_fields f = time_column now :: map stream_column kvs /\
    ((forall kvs', p <> Some (JObject kvs')) -> frame_fields f = [time_column now]).
Proof.
  intros Hdec Hstep.
  destruct (rs_step_message_inv _ _ _ _ _ Hstep) as (-> & now & kvs & f & err & -> & Hperm & Hf).
  rewrite Hdec in Hperm. simpl in Hperm.
  split; [reflexivity|]. exists now, kvs, f, err.
  repeat split; [done|done|]. intros Hnobj.
  assert (m = None) as ->.
  { destruct p as [[| | | | |kvs']|]; simpl in Hdec; try congruence.
    by destruct (Hnobj kvs'). }
  simpl in Hperm. apply map_to_list_perm_nil in Hperm as ->. done.
Qed.

Lemma undecodable_message_frame_witness :
  unmarshal_message None = (None, Some SyntaxError) /\
  exists now kvs f err,
    [ASendFrame (mkFrame "response" [time_column 0%Z] None) None] = [ASendFrame f err] /\
    kvs ≡ₚ map_to_list (msg_entries None) /\
    frame_fields f = time_column now :: map stream_column kvs /\
    ((forall kvs', (None : Payload) <> Some (JObject kvs')) -> frame_fields f = [time_column now]).
Proof.
  split; [reflexivity|].
  apply (undecodable_message_frame (mkKafkaClient "localhost:9092" "latest") req_metrics
           None None SyntaxError
           [ASendFrame (mkFrame "response" [time_column 0%Z] None) None] RSPolling).
  - reflexivity.
  - apply (rs_step_message_send _ _ None 0%Z None).
Defined.

(** The payload {"a": 1.0, "b": 2.5}. *)
Definition payload_ab : Payload :=
  Some (JObject [("a", JNumber 1); ("b", JNumber (5 # 2))]).

Example payload_ab_decodes :
  unmarshal_message payload_ab = (Some (<[ "b" := 5 # 2 ]> (<[ "a" := 1%Q ]> ∅)), None).
Proof. reflexivity. Qed.

(** C3 (counterexample): for {"a": 1.0, "b": 2.5} the loop may send the
    columns as [time, b, a]: [range] over a Go map does not follow the
    order of the keys in the message. *)
Lemma decoded_columns_not_in_discovery_order :
  ~ (forall (client : KafkaClient) (req : RunStreamRequest) (acts : list Action) (s' : RSState),
       rs_step client req RSPolling (APoll 100 (Some (EvMessage payload_ab)) :: acts) s' ->
       forall f err, In (ASendFrame f err) acts ->
       map field_name (frame_fields f) = ["time"; "a"; "b"]).
Proof.
  intros Hclaim.
  set (f := mkFrame "response"
              (time_column 0%Z :: map stream_column [("b", 5 # 2); ("a", 1%Q)]) None).
  assert (Hstep : rs_step (mkKafkaClient "localhost:9092" "latest") req_metrics RSPolling
                    [APoll 100 (Some (EvMessage payload_ab)); ASendFrame f None] RSPolling).
  { eapply rs_send with (kvs := [("b", 5 # 2); ("a", 1%Q)]) (now := 0%Z).
    - apply ConsumerPull_message.
    - rewrite payload_ab_decodes. simpl.
      rewrite map_to_list_insert.
      + rewrite map_to_list_insert by apply lookup_empty.
        rewrite map_to_list_empty. reflexivity.
      + by rewrite lookup_insert_ne, lookup_empty.
    - apply stream_frame_spec. }
  pose proof (Hclaim _ _ _ _ Hstep f None (or_introl eq_refl)) as Hnames.
  discriminate Hnames.
Qed.

(** C3 (amended): a message whose payload decodes without error to a map
    [m] yields one frame: first the "time" column holding the capture time,
    then exactly one float64 column per key of [m] holding [m]'s value for
    that key, in Go's map iteration order (a permutation of [m]'s entries,
    not necessarily the order of the keys in the message). *)
Theorem decoded_message_frame (client : KafkaClient) (req : RunStreamRequest)
    (p : Payload) (m : KafkaMessage) (acts : list Action) (s' : RSState) :
  unmarshal_message p = (Some m, None) ->
  rs_step client req RSPolling (APoll 100 (Some (EvMessage p)) :: acts) s' ->
  s' = RSPolling /\
  exists now kvs f err,
    acts = [ASendFrame f err] /\
    frame_fields f = time_column now :: map stream_column kvs /\
    kvs ≡ₚ map_to_list m /\
    NoDup kvs.*1 /\
    (forall k v, In (k, v) kvs <-> m !! k = Some v).
Proof.
  intros Hdec Hstep.
  destruct (rs_step_message_inv _ _ _ _ _ Hstep) as (-> & now & kvs & f & err & -> & Hperm & Hf).
  rewrite Hdec in Hperm. simpl in Hperm.
  split; [reflexivity|]. exists now, kvs, f, err.
  destruct (perm_map_to_list_lookup m kvs Hperm) as [Hnd Hlk].
  auto.
Qed.

Lemma decoded_message_frame_witness :
  exists now kvs f err,
    [ASendFrame (mkFrame "response"
       (time_column 5%Z :: map stream_column
          (map_to_list (msg_entries (fst (unmarshal_message payload_ab))))) None) None]
      = [ASendFrame f err] /\
    frame_fields f = time_column now :: map stream_column kvs /\
    kvs ≡ₚ map_to_list (<[ "b" := 5 # 2 ]> (<[ "a" := 1%Q ]> (∅ : KafkaMessage))) /\
    NoDup kvs.*1 /\
    (forall k v, In (k, v) kvs <->
       (<[ "b" := 5 # 2 ]> (<[ "a" := 1%Q ]> (∅ : KafkaMessage))) !! k = Some v).
Proof.
  apply (decoded_message_frame (mkKafkaClient "localhost:9092" "latest") req_metrics
           payload_ab (<[ "b" := 5 # 2 ]> (<[ "a" := 1%Q ]> ∅)) _ RSPolling).
  - reflexivity.
  - apply (rs_step_message_send _ _ payload_ab 5%Z None).
Defined.

(** C4: a poll ends [RunStream] (by a panic) exactly when it returns an
    error event whose code is [ErrAllBrokersDown]; on every other error
    event the loop goes back to polling. *)
Theorem poll_error_policy (client : KafkaClient) (req : RunStreamRequest)
    (polled : option Event) (acts : list Action) (s' : RSState) :
  rs_step client req RSPolling (APoll 100 polled :: acts) s' ->
  ((exists p, s' = RSPanicked p) <->
     (exists e, polled = Some (EvError e) /\ err_code e = ErrAllBrokersDown)) /\
  (forall e, polled = Some (EvError e) -> err_code e <> ErrAllBrokersDown -> s' = RSPolling).
Proof.
  intros Hstep.
  inversion Hstep as [| | | |polled' e Hpull|polled' msg Hpull
                     |polled' msg ev now kvs Hpull Hperm Hframe
                     |polled' msg ev now kvs f err Hpull Hperm Hframe]; subst.
  - destruct (ConsumerPull_panic_inv _ _ Hpull) as [-> Hcode].
    split.
    + split; [intros _; by exists e | intros _; by exists (PanicKafka e)].
    + intros e' He' Hne. injection He' as <-. contradiction.
  - split; [|done].
    split; [intros [p Hp]; discriminate|].
    intros (e & -> & Hcode). rewrite ConsumerPull_all_brokers_down in Hpull by done.
    discriminate.
  - by apply stream_frame_not_None in Hframe.
  - split; [|done].
    split; [intros [p Hp]; discriminate|].
    intros (e & -> & Hcode). rewrite ConsumerPull_all_brokers_down in Hpull by done.
    discriminate.
Qed.

Lemma poll_error_policy_witness :
  ((exists p, RSPolling = RSPanicked p) <->
     (exists e, Some (EvError (mkKafkaError (-195) "transport")) = Some (EvError e) /\
                err_code e = ErrAllBrokersDown)) /\
  (forall e, Some (EvError (mkKafkaError (-195) "transport")) = Some (EvError e) ->
             err_code e <> ErrAllBrokersDown -> RSPolling = RSPolling).
Proof.
  apply (poll_error_policy (mkKafkaClient "localhost:9092" "latest") req_metrics
           (Some (EvError (mkKafkaError (-195) "transport")))
           [ASendFrame (mkFrame "response" [time_column 3%Z] None) None] RSPolling).
  eapply rs_send with (kvs := []) (now := 3%Z).
  - reflexivity.
  - reflexivity.
  - reflexivity.
Defined.

(** C10: every frame a run of [RunStream] hands to the sender is a "time"
    field with exactly one timestamp followed by fields with exactly one
    float64 each; when the polled message decodes to an empty (or nil) map
    the frame is the "time" field alone. *)
Theorem streamed_frame_fields (client : KafkaClient) (req : RunStreamRequest)
    (acts : list Action) (s : RSState) :
  rs_run client req RSStart acts s ->
  forall f err, In (ASendFrame f err) acts ->
  exists now kvs polled msg ev,
    In (APoll 100 polled) acts /\
    ConsumerPull polled = PullOk msg (Some ev) /\
    frame_fields f = time_column now :: map stream_column kvs /\
    (msg_entries msg = ∅ -> frame_fields f = [time_column now]).
Proof.
  intros Hrun f err Hin.
  destruct (rs_run_sent_frames _ _ _ _ _ Hrun f err Hin)
    as (now & kvs & polled & msg & ev & Hpoll & Hpull & Hperm & Hf).
  exists now, kvs, polled, msg, ev. repeat split; [done|done|done|].
  intros Hempty. rewrite Hempty in Hperm.
  apply map_to_list_perm_nil in Hperm as ->. done.
Qed.

Lemma streamed_frame_fields_witness :
  exists now kvs polled msg ev,
    In (APoll 100 polled)
      ([ANewConsumer (consumer_config (mkKafkaClient "localhost:9092" "latest")) None;
        AAssign (run_stream_target req_metrics) None] ++
       ([APoll 100 (Some (EvMessage (Some (JObject []))));
         ASendFrame (mkFrame "response" [time_column 9%Z] None) None] ++ []))%list /\
    ConsumerPull polled = PullOk msg (Some ev) /\
    frame_fields (mkFrame "response" [time_column 9%Z] None) =
      time_column now :: map stream_column kvs /\
    (msg_entries msg = ∅ ->
       frame_fields (mkFrame "response" [time_column 9%Z] None) = [time_column now]).
Proof.
  refine (streamed_frame_fields (mkKafkaClient "localhost:9092" "latest") req_metrics _ RSPolling
            _ (mkFrame "response" [time_column 9%Z] None) None _).
  - eapply rs_run_cons; [apply rs_init_ok|].
    eapply rs_run_cons; [|apply rs_run_nil].
    apply (rs_step_message_send _ _ (Some (JObject [])) 9%Z None).
  - simpl. auto.
Defined.

(* ------------------------------------------------------------------ *)
(** ** Claims on the health check, the query path and the stream handlers *)

(** The result [CheckHealth] reports on a transport failure. *)
Definition health_error_result : CheckHealthResult :=
  mkCheckHealthResult HealthStatusError "Cannot connect to the brokers.".

(** [kafka.NewConsumer] rejects a configuration whose [auto.offset.reset]
    is not one of librdkafka's values, such as "bogus". *)
Definition err_bogus_offset_reset : KafkaError :=
  mkKafkaError ErrInvalidArg "Invalid value for configuration property auto.offset.reset".

(** C5 (counterexample): with a consumer configuration [kafka.NewConsumer]
    rejects, [ConsumerInitialize] panics inside [HealthCheck]: although the
    metadata probe reports no failure, no OK result (indeed no result at
    all) is returned. *)
Lemma check_health_init_failure_no_result :
  CheckHealth (Some err_bogus_offset_reset) None = GPanic (PanicKafka err_bogus_offset_reset) /\
  ~ exists r, CheckHealth (Some err_bogus_offset_reset) None = GReturn r.
Proof.
  split; [reflexivity|]. intros [r Hr]. discriminate.
Qed.

(** C5 (amended): when [kafka.NewConsumer] fails with error [e],
    [CheckHealth] panics with [e] and returns nothing; when the consumer is
    created, [CheckHealth] returns, its result is {ERROR, "Cannot connect to
    the brokers."} exactly when [GetMetadata] failed with [ErrTransport],
    and {OK, "Data source is working..."} otherwise, other error codes
    included. *)
Theorem check_health_result (init_err probe : option KafkaError) :
  (forall e, init_err = Some e -> CheckHealth init_err probe = GPanic (PanicKafka e)) /\
  (init_err = None ->
   exists r, CheckHealth init_err probe = GReturn r /\
     (r = health_error_result <-> exists e, probe = Some e /\ err_code e = ErrTransport) /\
     ((~ exists e, probe = Some e /\ err_code e = ErrTransport) ->
      r = mkCheckHealthResult HealthStatusOk "Data source is working...")).
Proof.
  split; [intros e ->; reflexivity|intros ->].
  unfold CheckHealth, HealthCheck.
  destruct probe as [e|]; simpl.
  - destruct (Z.eqb_spec (err_code e) ErrTransport) as [Ht|Ht];
      eexists; (split; [reflexivity|]).
    + split; [split; [intros _; by exists e|done]|].
      intros Hn. exfalso. apply Hn. by exists e.
    + split; [|done]. split; [discriminate|].
      intros (e' & He' & Hc). injection He' as <-. contradiction.
  - eexists; split; [reflexivity|].
    split; [|done]. split; [discriminate|]. intros (e & He & _). discriminate.
Qed.

(** C6: a query whose JSON decodes without error gets one frame: a "time"
    field holding [From; To], a "values" field holding [0; 0], and a channel
    (scope "ds", the datasource UID, path "stream") in its metadata exactly
    when [withStreaming] is set. *)
Theorem query_frame (unmarshal_query : list Byte.byte -> queryModel * option UnmarshalError)
    (pCtx : PluginContext) (query : DataQuery) (qm : queryModel) :
  unmarshal_query (dq_JSON query) = (qm, None) ->
  exists f,
    Query unmarshal_query pCtx query = mkDataResponse [f] None /\
    frame_fields f =
      [NewField "time" (VTime [tr_From (dq_TimeRange query); tr_To (dq_TimeRange query)]);
       NewField "values" (VInt64 [0%Z; 0%Z])] /\
    (is_Some (frame_meta f) <-> qm_WithStreaming qm = true) /\
    (forall m, frame_meta f = Some m ->
       meta_channel m = channel_String (mkChannel ScopeDatasource (pc_UID pCtx) "stream")).
Proof.
  intros Hdec. unfold Query. rewrite Hdec.
  destruct (qm_WithStreaming qm); simpl.
  - eexists. split; [reflexivity|]. simpl.
    split; [done|]. split; [split; [done|intros _; by eexists]|].
    intros m Hm. by injection Hm as <-.
  - eexists. split; [reflexivity|]. simpl.
    split; [done|]. split; [split; [intros [? Hm]; discriminate|discriminate]|].
    intros m Hm. discriminate.
Qed.

Lemma query_frame_witness :
  exists f,
    Query (fun _ => (mkQueryModel "metrics" 2 true, None)) (mkPluginContext "uid1")
      (mkDataQuery "A" [] (mkTimeRange 10 20)) = mkDataResponse [f] None /\
    frame_fields f =
      [NewField "time" (VTime [10%Z; 20%Z]); NewField "values" (VInt64 [0%Z; 0%Z])] /\
    (is_Some (frame_meta f) <-> qm_WithStreaming (mkQueryModel "metrics" 2 true) = true) /\
    (forall m, frame_meta f = Some m ->
       meta_channel m = channel_String (mkChannel ScopeDatasource "uid1" "stream")).
Proof.
  apply (query_frame (fun _ => (mkQueryModel "metrics" 2 true, None)) (mkPluginContext "uid1")
           (mkDataQuery "A" [] (mkTimeRange 10 20)) (mkQueryModel "metrics" 2 true)).
  reflexivity.
Defined.

Example query_channel_string :
  channel_String (mkChannel ScopeDatasource "uid1" "stream") = "ds/uid1/stream".
Proof. reflexivity. Qed.

Section QueryDataLookup.

Variable unmarshal_query : list Byte.byte -> queryModel * option UnmarshalError.
Variable pCtx : PluginContext.

Lemma QueryData_fold_not_in (queries : list DataQuery) :
  forall (acc : gmap string DataResponse) (k : string), k ∉ map dq_RefID queries ->
  fold_left (fun responses q => <[dq_RefID q := Query unmarshal_query pCtx q]> responses)
    queries acc !! k = acc !! k.
Proof.
  induction queries as [|q0 rest IH]; intros acc k Hk; simpl; [done|].
  rewrite IH by set_solver.
  apply lookup_insert_ne. set_solver.
Qed.

Lemma QueryData_fold_lookup (queries : list DataQuery) :
  forall (acc : gmap string DataResponse) (q : DataQuery),
  NoDup (map dq_RefID queries) -> In q queries ->
  fold_left (fun responses q => <[dq_RefID q := Query unmarshal_query pCtx q]> responses)
    queries acc !! dq_RefID q = Some (Query unmarshal_query pCtx q).
Proof.
  induction queries as [|q0 rest IH]; intros acc q Hnd Hin; simpl in *; [done|].
  apply NoDup_cons in Hnd as [Hq0 Hnd].
  destruct Hin as [<-|Hin].
  - rewrite QueryData_fold_not_in by done. apply lookup_insert_eq.
  - by apply IH.
Qed.

End QueryDataLookup.

(** C7: with the queries' RefIDs distinct (the RefID is the query's
    identifier), a query whose JSON fails to decode gets a response holding
    the decode error and no frame, and every query of the request gets the
    response [Query] computes from that query alone. *)
Theorem query_decode_error_isolated
    (unmarshal_query : list Byte.byte -> queryModel * option UnmarshalError)
    (pCtx : PluginContext) (queries : list DataQuery) (q : DataQuery) (e : UnmarshalError) :
  NoDup (map dq_RefID queries) -> In q queries ->
  snd (unmarshal_query (dq_JSON q)) = Some e ->
  QueryData unmarshal_query pCtx queries !! dq_RefID q = Some (mkDataResponse [] (Some e)) /\
  (forall q', In q' queries ->
     QueryData unmarshal_query pCtx queries !! dq_RefID q' = Some (Query unmarshal_query pCtx q')).
Proof.
  intros Hnd Hin Herr.
  assert (Hall : forall q', In q' queries ->
            QueryData unmarshal_query pCtx queries !! dq_RefID q' = Some (Query unmarshal_query pCtx q')).
  { intros q' Hq'. by apply QueryData_fold_lookup. }
  split; [|done].
  rewrite Hall by done. f_equal.
  unfold Query. destruct (unmarshal_query (dq_JSON q)) as [qm err].
  simpl in Herr. by subst.
Qed.

(** A decoder for the witness: the byte 0 is not JSON. *)
Definition witness_unmarshal (b : list Byte.byte) : queryModel * option UnmarshalError :=
  match b with
  | [] => (mkQueryModel "metrics" 2 true, None)
  | _ => (queryModel_zero, Some SyntaxError)
  end.

Lemma query_decode_error_isolated_witness :
  QueryData witness_unmarshal (mkPluginContext "uid1")
    [mkDataQuery "A" [] (mkTimeRange 10 20); mkDataQuery "B" [Byte.x00] (mkTimeRange 10 20)]
    !! "B" = Some (mkDataResponse [] (Some SyntaxError)) /\
  (forall q', In q' [mkDataQuery "A" [] (mkTimeRange 10 20); mkDataQuery "B" [Byte.x00] (mkTimeRange 10 20)] ->
     QueryData witness_unmarshal (mkPluginContext "uid1")
       [mkDataQuery "A" [] (mkTimeRange 10 20); mkDataQuery "B" [Byte.x00] (mkTimeRange 10 20)]
       !! dq_RefID q' = Some (Query witness_unmarshal (mkPluginContext "uid1") q')).
Proof.
  apply (query_decode_error_isolated witness_unmarshal (mkPluginContext "uid1")
           [mkDataQuery "A" [] (mkTimeRange 10 20); mkDataQuery "B" [Byte.x00] (mkTimeRange 10 20)]
           (mkDataQuery "B" [Byte.x00] (mkTimeRange 10 20)) SyntaxError).
  - simpl. repeat constructor; simpl; set_solver.
  - simpl. auto.
  - reflexivity.
Defined.

(** C8: a subscription is granted exactly on the path "stream"; every other
    path is denied. *)
Theorem subscribe_stream_path (req : SubscribeStreamRequest) :
  (SubscribeStream req = SubscribeStreamStatusOK <-> ssr_Path req = "stream") /\
  (ssr_Path req <> "stream" -> SubscribeStream req = SubscribeStreamStatusPermissionDenied).
Proof.
  unfold SubscribeStream.
  destruct (String.eqb_spec (ssr_Path req) "stream") as [Hp|Hp].
  - split; [done|]. intros Hn. contradiction.
  - split; [split; [discriminate|intros H; contradiction]|done].
Qed.

Example subscribe_stream_empty :
  SubscribeStream (mkSubscribeStreamRequest "" []) = SubscribeStreamStatusPermissionDenied.
Proof. reflexivity. Qed.

Example subscribe_stream_capitalised :
  SubscribeStream (mkSubscribeStreamRequest "Stream" []) = SubscribeStreamStatusPermissionDenied.
Proof. reflexivity. Qed.

(** C9: every publish request is denied. *)
Theorem publish_stream_denied (req : PublishStreamRequest) :
  PublishStream req = PublishStreamStatusPermissionDenied.
Proof. reflexivity. Qed.

(* ------------------------------------------------------------------ *)
(** ** Further properties of the decoder and of [ConsumerPull] *)

(** The last value bound to [k] in a JSON object's member list. *)
Fixpoint last_binding (k : string) (kvs : list (string * json)) : option json :=
  match kvs with
  | [] => None
  | (k', v) :: rest =>
      match last_binding k rest with
      | Some v' => Some v'
      | None => if String.eqb k k' then Some v else None
      end
  end.

Lemma unmarshal_object_lookup (kvs : list (string * json)) :
  forall (m : KafkaMessage) (saved : option UnmarshalError) (k : string),
  (unmarshal_object kvs m saved).1 !! k =
  match last_binding k kvs with
  | Some v => Some (float_of_json v).1
  | None => m !! k
  end.
Proof.
  induction kvs as [|[k' v] rest IH]; intros m saved k; simpl; [done|].
  destruct (float_of_json v) as [x e] eqn:Hv. rewrite IH.
  destruct (last_binding k rest); [done|].
  destruct (String.eqb_spec k k') as [->|Hne].
  - rewrite lookup_insert_eq. by rewrite Hv.
  - by rewrite lookup_insert_ne by congruence.
Qed.

(** A member value whose decoding stores a value chosen by [ParseFloat]
    itself: anything but a number beyond the float64 range. *)
Definition float_in_range (v : json) : bool :=
  match v with
  | JNumber q => match float64_of_Q q with Some _ => true | None => false end
  | _ => true
  end.

(** X1: decoding a JSON object gives a map holding exactly the object's
    keys; a key whose last value in the object is a number within the
    float64 range holds that number rounded to the nearest float64, and a
    key whose last value is [null] or not a number holds 0. *)
Theorem unmarshal_message_object_lookup (kvs : list (string * json)) (k : string) :
  let m := msg_entries (unmarshal_message (Some (JObject kvs))).1 in
  match last_binding k kvs with
  | Some v => is_Some (m !! k) /\ (float_in_range v = true -> m !! k = Some (float_of_json v).1)
  | None => m !! k = None
  end.
Proof.
  simpl. destruct (unmarshal_object kvs ∅ None) as [m e] eqn:Hu. simpl.
  pose proof (unmarshal_object_lookup kvs ∅ None k) as H.
  rewrite Hu in H. simpl in H. rewrite H.
  destruct (last_binding k kvs); [|apply lookup_empty].
  split; [by eexists|done].
Qed.

(** A member value decodes into a float64 without error: a number within
    the float64 range, or [null]. *)
Definition float_value_ok (v : json) : Prop :=
  match v with
  | JNumber q => float64_of_Q q <> None
  | JNull => True
  | _ => False
  end.

Lemma unmarshal_object_saved (kvs : list (string * json)) :
  forall (m : KafkaMessage) (e : UnmarshalError),
  (unmarshal_object kvs m (Some e)).2 = Some e.
Proof.
  induction kvs as [|[k v] rest IH]; intros m e; simpl; [done|].
  destruct (float_of_json v). apply IH.
Qed.

Lemma unmarshal_object_no_error (kvs : list (string * json)) :
  forall (m : KafkaMessage),
  (unmarshal_object kvs m None).2 = None <-> Forall (fun kv => float_value_ok kv.2) kvs.
Proof.
  induction kvs as [|[k v] rest IH]; intros m; simpl.
  - split; [constructor|done].
  - rewrite Forall_cons. simpl.
    destruct v as [| |q| | |]; simpl;
      try (rewrite IH; tauto);
      try (rewrite unmarshal_object_saved; split; [discriminate|intros [[] _]]).
    destruct (float64_of_Q q) eqn:Hq; simpl.
    + rewrite IH. split; [intros H; split; [discriminate|exact H]|tauto].
    + rewrite unmarshal_object_saved. split; [discriminate|intros [Hn _]; by destruct Hn].
Qed.

(** X2: [json.Unmarshal] into the message map reports no error exactly for
    [null] and for a JSON object whose every member is a number within the
    float64 range or [null]. *)
Theorem unmarshal_message_no_error (p : Payload) :
  (unmarshal_message p).2 = None <->
  p = Some JNull \/
  exists kvs, p = Some (JObject kvs) /\ Forall (fun kv => float_value_ok kv.2) kvs.
Proof.
  destruct p as [[| | | | |kvs]|]; simpl;
    try (split; [discriminate|intros [H|(kvs' & H & _)]; discriminate]).
  - split; [by left|done].
  - destruct (unmarshal_object kvs ∅ None) as [m e] eqn:Hu. simpl.
    pose proof (unmarshal_object_no_error kvs ∅) as H. rewrite Hu in H. simpl in H.
    rewrite H. split.
    + intros Hall. right. by exists kvs.
    + intros [Hn|(kvs' & Heq & Hall)]; [discriminate|]. by injection Heq as <-.
Qed.

(** X3: unless it panics, [ConsumerPull] hands back the polled event
    unchanged, and it returns a non-nil message only for a message event
    whose payload is a JSON object. *)
Theorem ConsumerPull_passes_event (polled : option Event)
    (msg : option KafkaMessage) (ev : option Event) :
  ConsumerPull polled = PullOk msg ev ->
  ev = polled /\
  (msg <> None -> exists kvs, polled = Some (EvMessage (Some (JObject kvs)))).
Proof.
  destruct polled as [[p|e|k]|]; simpl.
  - intros H. injection H as <- <-. split; [done|].
    destruct p as [[| | | | |kvs]|]; simpl; try congruence.
    + intros _. by exists kvs.
  - destruct (Z.eqb (err_code e) ErrAllBrokersDown); [discriminate|].
    intros H. injection H as <- <-. split; [done|congruence].
  - intros H. injection H as <- <-. split; [done|congruence].
  - intros H. injection H as <- <-. split; [done|congruence].
Qed.

Lemma ConsumerPull_passes_event_witness :
  Some (EvMessage payload_ab) = Some (EvMessage payload_ab) /\
  (Some (<[ "b" := 5 # 2 ]> (<[ "a" := 1%Q ]> (∅ : KafkaMessage))) <> None ->
   exists kvs, Some (EvMessage payload_ab) = Some (EvMessage (Some (JObject kvs)))).
Proof.
  apply (ConsumerPull_passes_event (Some (EvMessage payload_ab))).
  reflexivity.
Defined.

(* ------------------------------------------------------------------ *)
(** ** Further properties of [RunStream] *)

(** X4: a poll that times out sends nothing and the loop keeps polling. *)
Theorem poll_timeout_sends_nothing (client : KafkaClient) (req : RunStreamRequest)
    (acts : list Action) (s' : RSState) :
  rs_step client req RSPolling (APoll 100 None :: acts) s' ->
  acts = [] /\ s' = RSPolling.
Proof.
  intros Hstep.
  inversion Hstep as [| | | |polled e Hpull|polled msg Hpull
                     |polled msg ev now kvs Hpull Hperm Hframe
                     |polled msg ev now kvs f err Hpull Hperm Hframe]; subst;
    simpl in Hpull; try discriminate; done.
Qed.

Lemma poll_timeout_sends_nothing_witness : [] = ([] : list Action) /\ RSPolling = RSPolling.
Proof.
  apply (poll_timeout_sends_nothing (mkKafkaClient "localhost:9092" "latest") req_metrics).
  eapply rs_pull_nil. reflexivity.
Defined.

(** An event that is neither a message nor a fatal error. *)
Definition non_message_event (ev : Event) : Prop :=
  match ev with
  | EvMessage _ => False
  | EvError e => err_code e <> ErrAllBrokersDown
  | EvOther _ => True
  end.

(** X5: an event that is not a message (a non-fatal error or any other
    event) still makes the loop send a frame holding only the "time" field,
    and the loop keeps polling. *)
Theorem non_message_event_sends_time_only (client : KafkaClient) (req : RunStreamRequest)
    (ev : Event) (acts : list Action) (s' : RSState) :
  non_message_event ev ->
  rs_step client req RSPolling (APoll 100 (Some ev) :: acts) s' ->
  s' = RSPolling /\
  exists now f err, acts = [ASendFrame f err] /\ frame_fields f = [time_column now].
Proof.
  intros Hev Hstep.
  assert (Hpull' : ConsumerPull (Some ev) = PullOk None (Some ev)).
  { destruct ev as [p|e|k]; simpl in Hev; [done| |done].
    by apply ConsumerPull_other_error. }
  inversion Hstep as [| | | |polled e Hpull|polled msg Hpull
                     |polled msg ev' now kvs Hpull Hperm Hframe
                     |polled msg ev' now kvs f err Hpull Hperm Hframe]; subst;
    rewrite Hpull' in Hpull; try discriminate.
  - by apply stream_frame_not_None in Hframe.
  - injection Hpull as <- _. simpl in Hperm.
    apply map_to_list_perm_nil in Hperm as ->.
    rewrite stream_frame_spec in Hframe. injection Hframe as <-.
    split; [done|]. by exists now, (mkFrame "response" [time_column now] None), err.
Qed.

Lemma non_message_event_sends_time_only_witness :
  exists now f err,
    [ASendFrame (mkFrame "response" [time_column 4%Z] None) None] = [ASendFrame f err] /\
    frame_fields f = [time_column now].
Proof.
  apply (non_message_event_sends_time_only (mkKafkaClient "localhost:9092" "latest") req_metrics
           (EvOther "PartitionEOF") _ RSPolling).
  - exact I.
  - eapply rs_send with (kvs := []) (now := 4%Z); reflexivity.
Defined.

(** X6: a message key named "time" does not replace the capture-time
    column: the frame then has a second field named "time", a float64 field
    holding the message's value. *)
Theorem time_key_duplicates_time_field (client : KafkaClient) (req : RunStreamRequest)
    (p : Payload) (v : Q) (acts : list Action) (s' : RSState) :
  msg_entries (unmarshal_message p).1 !! "time" = Some v ->
  rs_step client req RSPolling (APoll 100 (Some (EvMessage p)) :: acts) s' ->
  exists now f err rest,
    acts = [ASendFrame f err] /\
    frame_fields f = time_column now :: rest /\
    In (mkField "time" (VFloat64 [v])) rest.
Proof.
  intros Hv Hstep.
  destruct (rs_step_message_inv _ _ _ _ _ Hstep) as (_ & now & kvs & f & err & -> & Hperm & Hf).
  exists now, f, err, (map stream_column kvs). repeat split; [done|].
  destruct (perm_map_to_list_lookup _ _ Hperm) as [_ Hlk].
  apply Hlk in Hv.
  change (mkField "time" (VFloat64 [v])) with (stream_column ("time", v)).
  by apply in_map.
Qed.

Lemma time_key_duplicates_time_field_witness :
  exists now f err rest,
    [ASendFrame (mkFrame "response"
       (time_column 8%Z :: map stream_column
          (map_to_list (msg_entries (fst (unmarshal_message
             (Some (JObject [("time", JNumber 3)]))))))) None) None] = [ASendFrame f err] /\
    frame_fields f = time_column now :: rest /\
    In (mkField "time" (VFloat64 [3%Q])) rest.
Proof.
  apply (time_key_duplicates_time_field (mkKafkaClient "localhost:9092" "latest") req_metrics
           (Some (JObject [("time", JNumber 3)])) 3%Q _ RSPolling).
  - reflexivity.
  - apply rs_step_message_send.
Defined.

Definition is_new_consumer (a : Action) : bool :=
  match a with ANewConsumer _ _ => true | _ => false end.

Definition is_assign (a : Action) : bool :=
  match a with AAssign _ _ => true | _ => false end.

Definition is_setup (a : Action) : bool := is_new_consumer a || is_assign a.

Lemma rs_step_not_to_start (client : KafkaClient) (req : RunStreamRequest)
    (s : RSState) (a : list Action) (s' : RSState) :
  rs_step client req s a s' -> s' <> RSStart.
Proof. by destruct 1. Qed.

Lemma rs_step_no_setup (client : KafkaClient) (req : RunStreamRequest)
    (s : RSState) (a : list Action) (s' : RSState) :
  s <> RSStart -> rs_step client req s a s' -> Forall (fun x => is_setup x = false) a.
Proof. intros Hs. destruct 1; try done; repeat constructor. Qed.

Lemma rs_run_no_setup (client : KafkaClient) (req : RunStreamRequest)
    (s : RSState) (a : list Action) (s' : RSState) :
  s <> RSStart -> rs_run client req s a s' -> Forall (fun x => is_setup x = false) a.
Proof.
  intros Hs Hrun. induction Hrun as [s|s1 a1 s2 a2 s3 Hstep Hrun IH]; [constructor|].
  apply Forall_app. split.
  - by apply (rs_step_no_setup _ _ _ _ _ Hs Hstep).
  - apply IH. by apply (rs_step_not_to_start _ _ _ _ _ Hstep).
Qed.

Lemma count_no_setup (a : list Action) :
  Forall (fun x => is_setup x = false) a ->
  length (List.filter is_new_consumer a) = 0 /\ length (List.filter is_assign a) = 0.
Proof.
  induction 1 as [|x a Hx Ha IH]; [done|].
  unfold is_setup in Hx. apply orb_false_iff in Hx as [H1 H2].
  simpl. by rewrite H1, H2.
Qed.

(** X7: in every run of [RunStream] the consumer is created at most once
    and assigned at most once, and neither happens after the first poll. *)
Theorem run_stream_setup_once (client : KafkaClient) (req : RunStreamRequest)
    (acts : list Action) (s : RSState) :
  rs_run client req RSStart acts s ->
  length (List.filter is_new_consumer acts) <= 1 /\
  length (List.filter is_assign acts) <= 1 /\
  (forall pre polled post, acts = (pre ++ APoll 100 polled :: post)%list ->
     Forall (fun x => is_setup x = false) post).
Proof.
  intros Hrun.
  inversion Hrun as [s0 Hs Hnil|s1 a1 s2 a2 s3 Hstep Hrest]; subst.
  - split; [simpl; lia|]. split; [simpl; lia|]. intros pre polled post H. by destruct pre.
  - assert (Ha2 : Forall (fun x => is_setup x = false) a2).
    { apply (rs_run_no_setup _ _ _ _ _ (rs_step_not_to_start _ _ _ _ _ Hstep) Hrest). }
    destruct (count_no_setup _ Ha2) as [Hc1 Hc2].
    rewrite !List.filter_app, !length_app, Hc1, Hc2.
    inversion Hstep; subst; simpl;
      (split; [lia|]); (split; [lia|]);
      intros pre polled post H;
      destruct pre as [|x [|y pre]]; simpl in H; inversion H; subst;
      repeat match goal with
      | Hf : Forall _ (_ :: _) |- _ => apply Forall_cons in Hf as [_ Hf]
      | Hf : Forall _ (_ ++ _) |- _ => apply Forall_app in Hf as [_ Hf]
      end; done.
Qed.

Lemma run_stream_setup_once_witness :
  let acts := ([ANewConsumer (consumer_config (mkKafkaClient "localhost:9092" "latest")) None;
                AAssign (run_stream_target req_metrics) None] ++ ([APoll 100 None] ++ []))%list in
  length (List.filter is_new_consumer acts) <= 1 /\
  length (List.filter is_assign acts) <= 1 /\
  (forall pre polled post, acts = (pre ++ APoll 100 polled :: post)%list ->
     Forall (fun x => is_setup x = false) post).
Proof.
  intros acts.
  apply (run_stream_setup_once (mkKafkaClient "localhost:9092" "latest") req_metrics acts RSPolling).
  eapply rs_run_cons; [apply rs_init_ok|].
  eapply rs_run_cons; [eapply rs_pull_nil; reflexivity|].
  apply rs_run_nil.
Defined.

(* ------------------------------------------------------------------ *)
(** ** Further properties of the query path *)

(** The last query of the list with RefID [r]. *)
Fixpoint last_query_with_refid (r : string) (queries : list DataQuery) : option DataQuery :=
  match queries with
  | [] => None
  | q :: rest =>
      match last_query_with_refid r rest with
      | Some q' => Some q'
      | None => if String.eqb (dq_RefID q) r then Some q else None
      end
  end.

Lemma QueryData_fold_last
    (unmarshal_query : list Byte.byte -> queryModel * option UnmarshalError)
    (pCtx : PluginContext) (queries : list DataQuery) :
  forall (acc : gmap string DataResponse) (r : string),
  fold_left (fun responses q => <[dq_RefID q := Query unmarshal_query pCtx q]> responses)
    queries acc !! r =
  match last_query_with_refid r queries with
  | Some q => Some (Query unmarshal_query pCtx q)
  | None => acc !! r
  end.
Proof.
  induction queries as [|q rest IH]; intros acc r; simpl; [done|].
  rewrite IH. destruct (last_query_with_refid r rest); [done|].
  destruct (String.eqb_spec (dq_RefID q) r) as [<-|Hne].
  - apply lookup_insert_eq.
  - by apply lookup_insert_ne.
Qed.

(** X8: [QueryData] answers RefID [r] with the response of the last query
    carrying [r]; an earlier query with the same RefID is overwritten, and a
    RefID no query carries has no response. *)
Theorem QueryData_last_refid_wins
    (unmarshal_query : list Byte.byte -> queryModel * option UnmarshalError)
    (pCtx : PluginContext) (queries : list DataQuery) (r : string) :
  QueryData unmarshal_query pCtx queries !! r =
  match last_query_with_refid r queries with
  | Some q => Some (Query unmarshal_query pCtx q)
  | None => None
  end.
Proof.
  unfold QueryData. rewrite QueryData_fold_last.
  destruct (last_query_with_refid r queries); [done|]. apply lookup_empty.
Qed.

(** X9: every streaming query of a datasource instance gets the same channel
    ("ds/<uid>/stream"), whatever its topic and partition. *)
Theorem query_channel_ignores_topic
    (unmarshal_query : list Byte.byte -> queryModel * option UnmarshalError)
    (pCtx : PluginContext) (q1 q2 : DataQuery) (qm1 qm2 : queryModel) :
  unmarshal_query (dq_JSON q1) = (qm1, None) ->
  unmarshal_query (dq_JSON q2) = (qm2, None) ->
  qm_WithStreaming qm1 = true -> qm_WithStreaming qm2 = true ->
  map frame_meta (dr_Frames (Query unmarshal_query pCtx q1)) =
  map frame_meta (dr_Frames (Query unmarshal_query pCtx q2)).
Proof.
  intros H1 H2 Hs1 Hs2. unfold Query. rewrite H1, H2, Hs1, Hs2. reflexivity.
Qed.

(** A decoder for the witnesses: the first byte selects the topic. *)
Definition witness_unmarshal_topic (b : list Byte.byte) : queryModel * option UnmarshalError :=
  match b with
  | [] => (mkQueryModel "metrics" 0 true, None)
  | _ => (mkQueryModel "logs" 3 true, None)
  end.

Lemma query_channel_ignores_topic_witness :
  map frame_meta (dr_Frames (Query witness_unmarshal_topic (mkPluginContext "uid1")
                               (mkDataQuery "A" [] (mkTimeRange 0 1)))) =
  map frame_meta (dr_Frames (Query witness_unmarshal_topic (mkPluginContext "uid1")
                               (mkDataQuery "B" [Byte.x01] (mkTimeRange 5 6)))).
Proof.
  apply (query_channel_ignores_topic witness_unmarshal_topic (mkPluginContext "uid1")
           (mkDataQuery "A" [] (mkTimeRange 0 1)) (mkDataQuery "B" [Byte.x01] (mkTimeRange 5 6))
           (mkQueryModel "metrics" 0 true) (mkQueryModel "logs" 3 true));
    reflexivity.
Defined.

(* ------------------------------------------------------------------ *)
(** ** [NewKafkaInstance] and [getDatasourceSettings] *)

(** [backend.DataSourceInstanceSettings]: the fields the code reads. *)
Record DataSourceInstanceSettings := mkDataSourceInstanceSettings {
  dsis_JSONData : list Byte.byte;
  dsis_DecryptedSecureJSONData : gmap string string }.

Record KafkaDatasource := mkKafkaDatasource { ds_client : KafkaClient }.

Section Settings.

(** [json.Unmarshal(s.JSONData, settings)] into a zero [Options]: the
    decoded value and the error it returns.  Left abstract. *)
Variable unmarshal_options : list Byte.byte -> Options * option UnmarshalError.

(** [getDatasourceSettings]: the error, or the settings. *)
Definition getDatasourceSettings (s : DataSourceInstanceSettings) : UnmarshalError + Options :=
  let '(settings, err) := unmarshal_options (dsis_JSONData s) in
  match err with
  | Some e => inl e
  | None =>
      match dsis_DecryptedSecureJSONData s !! "apiKey" with
      | Some apiKey =>
          inr (mkOptions (opt_BootstrapServers settings) (opt_AutoOffsetReset settings) apiKey)
      | None => inr settings
      end
  end.

Definition NewKafkaInstance (s : DataSourceInstanceSettings) : UnmarshalError + KafkaDatasource :=
  match getDatasourceSettings s with
  | inl err => inl err
  | inr settings =>
      let client := NewKafkaClient settings in
      inr (mkKafkaDatasource client)
  end.

End Settings.

(** X10: [NewKafkaInstance] fails exactly when the settings JSON fails to
    decode, with that error; otherwise its client uses the decoded
    bootstrapServers and autoOffsetReset, and the decrypted secure data
    (the API key) has no influence on the instance. *)
Theorem NewKafkaInstance_settings
    (unmarshal_options : list Byte.byte -> Options * option UnmarshalError)
    (s : DataSourceInstanceSettings) (secure : gmap string string) :
  NewKafkaInstance unmarshal_options s =
  NewKafkaInstance unmarshal_options (mkDataSourceInstanceSettings (dsis_JSONData s) secure) /\
  (forall e, NewKafkaInstance unmarshal_options s = inl e <->
             (unmarshal_options (dsis_JSONData s)).2 = Some e) /\
  ((unmarshal_options (dsis_JSONData s)).2 = None ->
   NewKafkaInstance unmarshal_options s =
   inr (mkKafkaDatasource
          (mkKafkaClient (opt_BootstrapServers (unmarshal_options (dsis_JSONData s)).1)
                         (opt_AutoOffsetReset (unmarshal_options (dsis_JSONData s)).1)))).
Proof.
  unfold NewKafkaInstance, getDatasourceSettings. simpl.
  destruct (unmarshal_options (dsis_JSONData s)) as [o [e|]]; simpl.
  - split; [done|]. split; [|done].
    intros e'. split; [intros H; by injection H as ->|intros H; by injection H as ->].
  - destruct (dsis_DecryptedSecureJSONData s !! "apiKey");
      destruct (secure !! "apiKey"); (split; [done|]); (split; [|done]);
      intros e; split; discriminate.
Qed.

(** X11: the decrypted "apiKey", when present, is the settings' API key
    (replacing any value from the settings JSON); otherwise the decoded
    value is kept.  The other settings are the decoded ones. *)
Theorem getDatasourceSettings_apiKey
    (unmarshal_options : list Byte.byte -> Options * option UnmarshalError)
    (s : DataSourceInstanceSettings) (o : Options) :
  unmarshal_options (dsis_JSONData s) = (o, None) ->
  exists settings,
    getDatasourceSettings unmarshal_options s = inr settings /\
    opt_BootstrapServers settings = opt_BootstrapServers o /\
    opt_AutoOffsetReset settings = opt_AutoOffsetReset o /\
    opt_APIKey settings = default (opt_APIKey o) (dsis_DecryptedSecureJSONData s !! "apiKey").
Proof.
  intros Hdec. unfold getDatasourceSettings. rewrite Hdec.
  destruct (dsis_DecryptedSecureJSONData s !! "apiKey"); simpl; by eexists.
Qed.

Lemma getDatasourceSettings_apiKey_witness :
  exists settings,
    getDatasourceSettings (fun _ => (mkOptions "broker:9092" "latest" "from-json", None))
      (mkDataSourceInstanceSettings [] ({[ "apiKey" := "secret" ]} : gmap string string)) = inr settings /\
    opt_BootstrapServers settings = "broker:9092" /\
    opt_AutoOffsetReset settings = "latest" /\
    opt_APIKey settings = default "from-json" (({[ "apiKey" := "secret" ]} : gmap string string) !! "apiKey").
Proof.
  exact (getDatasourceSettings_apiKey (fun _ => (mkOptions "broker:9092" "latest" "from-json", None))
           (mkDataSourceInstanceSettings [] ({[ "apiKey" := "secret" ]} : gmap string string))
           (mkOptions "broker:9092" "latest" "from-json") eq_refl).
Defined.
